(** * httptrace/server.go: the HTTP tracing middleware and its response recorder

    A shallow embedding of [src/httptrace/server.go].  The recorder
    ([responseInfoRecorder]) is an [http.ResponseWriter] that wraps another
    one; the downstream handler is an arbitrary client of that interface; the
    middleware threads the request-scoped state (the underlying writer, the
    request behind its pointer, the process log, the clock, the collector)
    through the statements of the Go closure. *)

From Stdlib Require Import ZArith Lia Strings.Byte DecimalString DecimalN.
From stdpp Require Import base option list strings gmap.

Local Open Scope Z_scope.

(** ** Machine integers *)

(** Go's [int64]: two's complement, additions wrap around silently. *)
Definition wrap64 (z : Z) : Z := (z + 2 ^ 63) mod 2 ^ 64 - 2 ^ 63.

Definition maxInt64 : Z := 2 ^ 63 - 1.

(** [http.StatusOK] *)
Definition StatusOK : Z := 200.

(** ** Headers *)

(** [http.Header] is [map[string][]string]; a Go map value is a reference, so
    the contents live in the state of whoever owns the map. *)
Abbreviation Header := (gmap string (list string)).

(** The output of the repository's [redactHeaders]: [map[string]string]. *)
Abbreviation Redacted := (gmap string string).

(** What a Go [error] value carries here: its message. *)
Definition error := string.

(** ** The [http.ResponseWriter] interface *)

(** [Header()] hands out the writer's header map: reading it is
    [rw_Header]; a mutation made through that reference is [rw_storeHeader].
    [Write] returns Go's [(int, error)]. *)
Class ResponseWriter (W : Type) := {
  rw_Header : W → Header;
  rw_storeHeader : Header → W → W;
  rw_Write : list byte → W → (Z * option error) * W;
  rw_WriteHeader : Z → W → W
}.

(** ** [responseInfoRecorder] *)

(** The two fields the recorder owns.  Its third, embedded field is the
    underlying [http.ResponseWriter]: an interface value, that is a reference
    to the wrapped writer, whose state is therefore carried next to the
    recorder (the pair [responseInfoRecorder * W]) and shared with it. *)
Record responseInfoRecorder := mkRecorder {
  statusCode : Z;
  ContentLength : Z
}.

(** [&responseInfoRecorder{ResponseWriter: rw}]: the other fields are zero. *)
Definition newRecorder : responseInfoRecorder :=
  {| statusCode := 0; ContentLength := 0 |}.

Section Recorder.
Context {W : Type} `{!ResponseWriter W}.

(** [func (r *responseInfoRecorder) Write(b []byte) (int, error)] *)
Definition Write (b : list byte) (rr : responseInfoRecorder * W)
  : (Z * option error) * (responseInfoRecorder * W) :=
  let '(r, under) := rr in
  let cl := wrap64 (ContentLength r + Z.of_nat (length b)) in
  let sc := if statusCode r =? 0 then StatusOK else statusCode r in
  let '(res, under') := rw_Write b under in
  (res, ({| statusCode := sc; ContentLength := cl |}, under')).

(** [func (r *responseInfoRecorder) StatusCode() int] *)
Definition StatusCode (r : responseInfoRecorder) : Z :=
  if statusCode r =? 0 then StatusOK else statusCode r.

(** [func (r *responseInfoRecorder) WriteHeader(code int)] *)
Definition WriteHeader (code : Z) (rr : responseInfoRecorder * W)
  : responseInfoRecorder * W :=
  let '(r, under) := rr in
  ({| statusCode := code; ContentLength := ContentLength r |},
   rw_WriteHeader code under).

(** The recorder is itself an [http.ResponseWriter]: [Header] is promoted
    from the embedded writer, [Write] and [WriteHeader] are the methods
    above. *)
#[export] Instance recorder_ResponseWriter
  : ResponseWriter (responseInfoRecorder * W) := {
  rw_Header rr := rw_Header (snd rr);
  rw_storeHeader h rr := (fst rr, rw_storeHeader h (snd rr));
  rw_Write := Write;
  rw_WriteHeader := WriteHeader
}.
End Recorder.

(** ** [http.Response], [ResponseInfo] *)

(** The fields of [http.Response] that the file sets or reads.  A field left
    out of the composite literal is nil: the empty map. *)
Record Response := mkResponse {
  resp_StatusCode : Z;
  resp_ContentLength : Z;
  resp_Header : Header;
  resp_Trailer : Header
}.

(** [type ResponseInfo struct] *)
Record ResponseInfo := mkResponseInfo {
  ri_Headers : Redacted;
  ri_ContentLength : Z;
  ri_StatusCode : Z
}.

(** The zero value of [ResponseInfo]. *)
Definition zeroResponseInfo : ResponseInfo :=
  {| ri_Headers := ∅; ri_ContentLength := 0; ri_StatusCode := 0 |}.

Section Snapshot.
Context {W : Type} `{!ResponseWriter W}.
(** [redactHeaders] is declared elsewhere in the package. *)
Variable redactHeaders : Header → Header → Redacted.

(** [func (r *responseInfoRecorder) partialResponse() *http.Response] *)
Definition partialResponse (rr : responseInfoRecorder * W) : Response :=
  {| resp_StatusCode := StatusCode (fst rr);
     resp_ContentLength := ContentLength (fst rr);
     resp_Header := rw_Header rr;
     resp_Trailer := ∅ |}.

(** [func responseInfo(r *http.Response) ResponseInfo] *)
Definition responseInfo (r : Response) : ResponseInfo :=
  {| ri_Headers := redactHeaders (resp_Header r) (resp_Trailer r);
     ri_ContentLength := resp_ContentLength r;
     ri_StatusCode := resp_StatusCode r |}.
End Snapshot.

(** ** Requests, events, configuration *)

(** [time.Time]: an instant, as a number of clock units. *)
Definition Time := Z.

(** The fields of [http.Request] that matter to this file. *)
Record Request := mkRequest {
  req_Method : string;
  req_RequestURI : string;
  req_Header : Header;
  req_Trailer : Header
}.

(** Modelled from the spec: the struct [RequestInfo] is declared elsewhere in
    the package; the spec gives it a method, a URI and a redacted header
    mapping, and the middleware reads its [URI] field. *)
Record RequestInfo := mkRequestInfo {
  qi_Method : string;
  qi_URI : string;
  qi_Headers : Redacted
}.

(** [type ServerEvent struct] *)
Record ServerEvent := mkServerEvent {
  ev_Request : RequestInfo;
  ev_Response : ResponseInfo;
  ev_Route : string;
  ev_User : string;
  ServerRecv : Time;
  ServerSend : Time
}.

(** [func (ServerEvent) Schema() string] *)
Definition Schema (_ : ServerEvent) : string := "HTTPServer".

Definition set_Request (q : RequestInfo) (e : ServerEvent) : ServerEvent :=
  mkServerEvent q (ev_Response e) (ev_Route e) (ev_User e) (ServerRecv e) (ServerSend e).
Definition set_Response (p : ResponseInfo) (e : ServerEvent) : ServerEvent :=
  mkServerEvent (ev_Request e) p (ev_Route e) (ev_User e) (ServerRecv e) (ServerSend e).
Definition set_Route (s : string) (e : ServerEvent) : ServerEvent :=
  mkServerEvent (ev_Request e) (ev_Response e) s (ev_User e) (ServerRecv e) (ServerSend e).
Definition set_User (s : string) (e : ServerEvent) : ServerEvent :=
  mkServerEvent (ev_Request e) (ev_Response e) (ev_Route e) s (ServerRecv e) (ServerSend e).
Definition set_ServerRecv (t : Time) (e : ServerEvent) : ServerEvent :=
  mkServerEvent (ev_Request e) (ev_Response e) (ev_Route e) (ev_User e) t (ServerSend e).
Definition set_ServerSend (t : Time) (e : ServerEvent) : ServerEvent :=
  mkServerEvent (ev_Request e) (ev_Response e) (ev_Route e) (ev_User e) (ServerRecv e) t.

(** What the file takes from outside: the rest of package [httptrace]
    ([GetSpanIDHeader], [SetSpanIDHeader], [requestInfo], [redactHeaders]),
    package [apptrace] ([SpanID], [NewRootSpanID]) and [time.Now].  The two
    sources of fresh values are given by what their successive calls return.
    [GetSpanIDHeader] returns a possibly nil span pointer and an [error];
    [SetSpanIDHeader]
    mutates the map it is given, so it maps the old contents to the new. *)
Class Externals (SpanID : Type) := {
  GetSpanIDHeader : Header → option SpanID * option error;
  SetSpanIDHeader : Header → SpanID → Header;
  requestInfo : Request → RequestInfo;
  redactHeaders : Header → Header → Redacted;
  rootSpanIDs : nat → SpanID;
  clock : nat → Time
}.

(** [type MiddlewareConfig struct]: three function values, each possibly nil.
    [SetContextSpan] receives the request pointer and may change what hangs
    off it. *)
Record MiddlewareConfig (SpanID : Type) := mkConfig {
  RouteName : option (Request → string);
  CurrentUser : option (Request → string);
  SetContextSpan : option (Request → SpanID → Request)
}.
Arguments mkConfig {SpanID}.
Arguments RouteName {SpanID}.
Arguments CurrentUser {SpanID}.
Arguments SetContextSpan {SpanID}.

(** ** The downstream handler *)

(** [next] is any Go function of a response writer and a request pointer: a
    finite tree of calls on the writer's interface, of reads and writes of
    the header map and of the request, and of clock readings, each
    continuing according to what the call returned. *)
Inductive Handler :=
| Return
| CallWrite (b : list byte) (k : Z * option error → Handler)
| CallWriteHeader (code : Z) (k : Handler)
| ReadHeader (k : Header → Handler)
| MutateHeader (f : Header → Header) (k : Handler)
| ReadRequest (k : Request → Handler)
| MutateRequest (f : Request → Request) (k : Handler)
| CallNow (k : Time → Handler).

(** Running a handler against a writer [rw] of any implementation, on the
    request [r], with [t] clock readings taken so far. *)
Fixpoint serve {SpanID} `{!Externals SpanID} {R} `{!ResponseWriter R}
    (h : Handler) (rw : R) (r : Request) (t : nat) : R * Request * nat :=
  match h with
  | Return => (rw, r, t)
  | CallWrite b k =>
      let '(res, rw') := rw_Write b rw in serve (k res) rw' r t
  | CallWriteHeader code k => serve k (rw_WriteHeader code rw) r t
  | ReadHeader k => serve (k (rw_Header rw)) rw r t
  | MutateHeader f k => serve k (rw_storeHeader (f (rw_Header rw)) rw) r t
  | ReadRequest k => serve (k r) rw r t
  | MutateRequest f k => serve k rw (f r) t
  | CallNow k => serve (k (clock t)) rw r (S t)
  end.

(** ** The state a request is handled in *)

(** The arguments of [log.Printf], one constructor per call site. *)
Inductive LogEntry :=
| LogInvalidSpanID (err : error)
| LogRequest (q : RequestInfo)
| LogResponse (p : ResponseInfo).

(** What reaches the collector through an [apptrace.Recorder]. *)
Inductive RecorderCall (SpanID : Type) :=
| RecName (id : SpanID) (name : string)
| RecEvent (id : SpanID) (e : ServerEvent).
Arguments RecName {SpanID}.
Arguments RecEvent {SpanID}.

(** Everything the closure reaches through a reference: the writer [rw], the
    request [*r], the process-wide log, the collector [c], and how many
    clock readings and root span ids have been drawn so far. *)
Record World (W SpanID : Type) := mkWorld {
  sink : W;
  request : Request;
  logs : list LogEntry;
  tick : nat;
  roots : nat;
  collected : list (RecorderCall SpanID)
}.
Arguments mkWorld {W SpanID}.
Arguments sink {W SpanID}.
Arguments request {W SpanID}.
Arguments logs {W SpanID}.
Arguments tick {W SpanID}.
Arguments roots {W SpanID}.
Arguments collected {W SpanID}.

(** A call either returns or panics. *)
Inductive Outcome (A : Type) :=
| Ok (a : A)
| Panicked (reason : string).
Arguments Ok {A}.
Arguments Panicked {A}.

(** The Go runtime's message for a nil pointer dereference. *)
Definition nilDereference : string :=
  "runtime error: invalid memory address or nil pointer dereference".

(** Statements: state passing, with panics cutting the rest short. *)
Definition M (W SpanID A : Type) : Type :=
  World W SpanID → Outcome A * World W SpanID.

#[export] Instance M_ret {W SpanID} : MRet (M W SpanID) :=
  λ A a w, (Ok a, w).

#[export] Instance M_bind {W SpanID} : MBind (M W SpanID) :=
  λ A B f m w,
    match m w with
    | (Ok a, w') => f a w'
    | (Panicked p, w') => (Panicked p, w')
    end.

Section Statements.
Context {W SpanID : Type} `{!ResponseWriter W} `{!Externals SpanID}.

(** [*p] on a pointer that may be nil. *)
Definition deref {A} (p : option A) : M W SpanID A :=
  λ w, match p with
       | Some a => (Ok a, w)
       | None => (Panicked nilDereference, w)
       end.

(** Reading [*r]. *)
Definition getRequest : M W SpanID Request :=
  λ w, (Ok (request w), w).

(** Writing through [r]. *)
Definition modifyRequest (f : Request → Request) : M W SpanID unit :=
  λ w, (Ok (), mkWorld (sink w) (f (request w)) (logs w) (tick w) (roots w)
                 (collected w)).

(** [log.Printf] *)
Definition logPrintf (l : LogEntry) : M W SpanID unit :=
  λ w, (Ok (), mkWorld (sink w) (request w) (logs w ++ [l]) (tick w) (roots w)
                 (collected w)).

(** [time.Now()] *)
Definition timeNow : M W SpanID Time :=
  λ w, (Ok (clock (tick w)),
        mkWorld (sink w) (request w) (logs w) (S (tick w)) (roots w)
          (collected w)).

(** [apptrace.NewRootSpanID()] *)
Definition NewRootSpanID : M W SpanID SpanID :=
  λ w, (Ok (rootSpanIDs (roots w)),
        mkWorld (sink w) (request w) (logs w) (tick w) (S (roots w))
          (collected w)).

(** A call on the recorder [rec] made by [apptrace.NewRecorder(id, c)]. *)
Definition record (call : RecorderCall SpanID) : M W SpanID unit :=
  λ w, (Ok (), mkWorld (sink w) (request w) (logs w) (tick w) (roots w)
                 (collected w ++ [call])).

(** [func NewServerEvent(r *http.Request) *ServerEvent] *)
Definition NewServerEvent (r : Request) : ServerEvent :=
  {| ev_Request := requestInfo r;
     ev_Response := zeroResponseInfo;
     ev_Route := "";
     ev_User := "";
     ServerRecv := 0;
     ServerSend := 0 |}.

(** [next(rr, r)]: the handler runs against the recorder [rr], whose
    embedded writer is the world's [sink]. *)
Definition callNext (next : Handler) (rr : responseInfoRecorder)
  : M W SpanID responseInfoRecorder :=
  λ w, let '(rr', r', t') := serve next (rr, sink w) (request w) (tick w) in
       (Ok (fst rr'),
        mkWorld (snd rr') r' (logs w) t' (roots w) (collected w)).

(** A mutation, through [rr.Header()], of the map the writer owns. *)
Definition mutateHeader (rr : responseInfoRecorder) (f : Header → Header)
  : M W SpanID unit :=
  λ w, let rr' := rw_storeHeader (f (rw_Header (rr, sink w))) (rr, sink w) in
       (Ok (), mkWorld (snd rr') (request w) (logs w) (tick w) (roots w)
                 (collected w)).

(** [responseInfo(rr.partialResponse())] *)
Definition snapshot (rr : responseInfoRecorder) : M W SpanID ResponseInfo :=
  λ w, (Ok (responseInfo redactHeaders (partialResponse (rr, sink w))), w).

(** ** [Middleware] *)

(** The closure returned by [Middleware(c, conf)], applied to [rw], [r] (both
    in the world, with the collector [c]) and [next]. *)
Definition Middleware (conf : option (MiddlewareConfig SpanID))
    (next : Handler) : M W SpanID unit :=
  r ← getRequest;
  let '(spanID, err) := GetSpanIDHeader (req_Header r) in
  match err with
  | Some msg => logPrintf (LogInvalidSpanID msg)
  | None => mret ()
  end;;
  let setSpanIDFromClient := bool_decide (is_Some spanID) in
  spanID ← match spanID with
            | Some id => mret id
            | None => NewRootSpanID
            end;

  cfg ← deref conf;
  match SetContextSpan cfg with
  | Some set => modifyRequest (λ r, set r spanID)
  | None => mret ()
  end;;

  r ← getRequest;
  let e := NewServerEvent r in
  now ← timeNow;
  let e := set_ServerRecv now e in
  cfg ← deref conf;
  r ← getRequest;
  let e := match RouteName cfg with
           | Some f => set_Route (f r) e
           | None => e
           end in
  cfg ← deref conf;
  r ← getRequest;
  let e := match CurrentUser cfg with
           | Some f => set_User (f r) e
           | None => e
           end in

  rr ← callNext next newRecorder;
  mutateHeader rr (λ h, SetSpanIDHeader h spanID);;

  e ← (if setSpanIDFromClient then mret e
       else
         r ← getRequest;
         let e := set_Request (requestInfo r) e in
         logPrintf (LogRequest (ev_Request e));;
         p ← snapshot rr;
         logPrintf (LogResponse p);;
         mret e);
  p ← snapshot rr;
  let e := set_Response p e in
  now ← timeNow;
  let e := set_ServerSend now e in

  (if bool_decide (ev_Route e ≠ "")
   then record (RecName spanID (ev_Route e))
   else record (RecName spanID (qi_URI (ev_Request e))));;
  record (RecEvent spanID e).

End Statements.

(** ** Clients of a writer: sequences of calls *)

(** [Write] called on each slice in turn; the results in order. *)
Fixpoint writeAll {R} `{!ResponseWriter R} (bs : list (list byte)) (rw : R)
    : list (Z * option error) * R :=
  match bs with
  | [] => ([], rw)
  | b :: bs' =>
      let '(res, rw') := rw_Write b rw in
      let '(rs, rw'') := writeAll bs' rw' in
      (res :: rs, rw'')
  end.

(** The number of bytes passed to a sequence of [Write] calls. *)
Definition totalBytes (bs : list (list byte)) : Z :=
  foldr (λ b n, Z.of_nat (length b) + n) 0 bs.

(** A call that changes the recorder. *)
Inductive Call :=
| DoWrite (b : list byte)
| DoWriteHeader (code : Z).

Definition call {R} `{!ResponseWriter R} (c : Call) (rw : R) : R :=
  match c with
  | DoWrite b => snd (rw_Write b rw)
  | DoWriteHeader code => rw_WriteHeader code rw
  end.

Definition calls {R} `{!ResponseWriter R} (cs : list Call) (rw : R) : R :=
  foldl (λ rw c, call c rw) rw cs.

(** The code of the most recent [WriteHeader] among [cs], if there is one. *)
Definition lastExplicitStatus (cs : list Call) : option Z :=
  foldl (λ o c, match c with DoWriteHeader code => Some code | DoWrite _ => o end)
        None cs.

(** ** A writer that keeps a journal *)

(** Every operation on the writer, in the order it happened. *)
Inductive WireOp :=
| WireWrite (b : list byte)
| WireWriteHeader (code : Z)
| WireHeaderStore (h : Header).

(** [wire_reply] is what this writer's [Write] answers to a slice. *)
Record Wire := mkWire {
  wire_header : Header;
  wire_journal : list WireOp;
  wire_reply : list byte → Z * option error
}.

#[export] Instance Wire_ResponseWriter : ResponseWriter Wire := {
  rw_Header w := wire_header w;
  rw_storeHeader h w :=
    mkWire h (wire_journal w ++ [WireHeaderStore h]) (wire_reply w);
  rw_Write b w :=
    (wire_reply w b,
     mkWire (wire_header w) (wire_journal w ++ [WireWrite b]) (wire_reply w));
  rw_WriteHeader code w :=
    mkWire (wire_header w) (wire_journal w ++ [WireWriteHeader code])
      (wire_reply w)
}.

(** Whether, in a journal, a header write accepted by [isEcho] comes before
    the first body write. *)
Fixpoint echoBeforeBody (isEcho : Header → bool) (ops : list WireOp) : bool :=
  match ops with
  | [] => false
  | WireWrite _ :: _ => false
  | WireWriteHeader _ :: ops' => echoBeforeBody isEcho ops'
  | WireHeaderStore h :: ops' => isEcho h || echoBeforeBody isEcho ops'
  end.

(** ** A concrete environment *)

(** Modelled from the spec: the span codec and the header helpers are not in
    this file.  Here a span id is a number, written in decimal in the one
    header [Span-ID]; an absent or empty header is no span and no error, any
    other text that is not a decimal number is an invalid header. *)
Definition demo_encode (id : N) : string :=
  NilEmpty.string_of_uint (N.to_uint id).

Definition demo_decode (s : string) : option N :=
  N.of_uint <$> NilEmpty.uint_of_string s.

Definition HeaderSpanID : string := "Span-ID".

Definition demo_GetSpanIDHeader (h : Header) : option N * option error :=
  match h !! HeaderSpanID with
  | Some (s :: _) =>
      if decide (s = "") then (None, None)
      else match demo_decode s with
           | Some id => (Some id, None)
           | None => (None, Some "invalid Span-ID header")
           end
  | _ => (None, None)
  end.

Definition demo_SetSpanIDHeader (h : Header) (id : N) : Header :=
  <[HeaderSpanID := [demo_encode id]]> h.

(** Modelled from the spec: [redactHeaders] is not in this file; headers and
    trailers are merged, the sensitive entries are left out, and each
    remaining name keeps its first value. *)
Definition demo_redactHeaders (h t : Header) : Redacted :=
  (λ vs : list string, default "" (head vs))
    <$> delete "Authorization" (delete "Cookie" (h ∪ t)).

(** Modelled from the spec: [requestInfo] is not in this file; it captures
    the method, the URI and the redacted headers of the request. *)
Definition demo_requestInfo (r : Request) : RequestInfo :=
  {| qi_Method := req_Method r;
     qi_URI := req_RequestURI r;
     qi_Headers := demo_redactHeaders (req_Header r) (req_Trailer r) |}.

#[export] Instance demo_Externals : Externals N := {
  GetSpanIDHeader := demo_GetSpanIDHeader;
  SetSpanIDHeader := demo_SetSpanIDHeader;
  requestInfo := demo_requestInfo;
  redactHeaders := demo_redactHeaders;
  rootSpanIDs n := N.of_nat (1000 + n);
  clock n := 500 + 10 * Z.of_nat n
}.

(** A writer with nothing sent yet, whose [Write] accepts every byte. *)
Definition demo_wire : Wire :=
  mkWire ∅ [] (λ b, (Z.of_nat (length b), None)).

(** A writer whose connection is gone: [Write] takes nothing and fails. *)
Definition broken_wire : Wire :=
  mkWire ∅ [] (λ _, (0, Some "broken pipe")).

(** [GET /widgets/7] with the given headers. *)
Definition demo_request (h : Header) : Request :=
  {| req_Method := "GET"; req_RequestURI := "/widgets/7";
     req_Header := h; req_Trailer := ∅ |}.

Definition demo_world (u : Wire) (h : Header) : World Wire N :=
  mkWorld u (demo_request h) [] 0%nat 0%nat [].

Definition demo_conf : MiddlewareConfig N :=
  {| RouteName := Some (λ _, "GetWidget");
     CurrentUser := None;
     SetContextSpan := None |}.

(** A handler that writes the two bytes of an empty JSON object. *)
Definition demo_handler : Handler :=
  CallWrite ["{"%byte; "}"%byte] (λ _, Return).

(** ** Names for what a run of the middleware goes through *)

Section Stages.
Context {W SpanID : Type} `{!ResponseWriter W} `{!Externals SpanID}.

(** [snapshot] taken [n] times in a row; the values in order. *)
Fixpoint snapshots (n : nat) (rr : responseInfoRecorder)
    : M W SpanID (list ResponseInfo) :=
  match n with
  | O => mret []
  | S n' => p ← snapshot rr; ps ← snapshots n' rr; mret (p :: ps)
  end.

(** What decoding the inbound header gives. *)
Definition inboundSpan (w : World W SpanID) : option SpanID :=
  fst (GetSpanIDHeader (req_Header (request w))).

Definition inboundError (w : World W SpanID) : option error :=
  snd (GetSpanIDHeader (req_Header (request w))).

(** The span the request is handled under: the client's, or else the next
    root span id. *)
Definition resolvedSpan (w : World W SpanID) : SpanID :=
  match inboundSpan w with
  | Some id => id
  | None => rootSpanIDs (roots w)
  end.

(** The request as the handler is given it: after [SetContextSpan], if any. *)
Definition publishedRequest (cfg : MiddlewareConfig SpanID)
    (w : World W SpanID) : Request :=
  match SetContextSpan cfg with
  | Some set => set (request w) (resolvedSpan w)
  | None => request w
  end.

(** The handler's run: against a fresh recorder over the writer, on the
    published request, one clock reading ([ServerRecv]) later. *)
Definition downstream (cfg : MiddlewareConfig SpanID) (next : Handler)
    (w : World W SpanID) : (responseInfoRecorder * W) * Request * nat :=
  serve next (newRecorder, sink w) (publishedRequest cfg w) (S (tick w)).

(** The events among the calls a collector received. *)
Definition eventsOf (cs : list (RecorderCall SpanID)) : list ServerEvent :=
  omap (λ c, match c with RecEvent _ e => Some e | RecName _ _ => None end) cs.

End Stages.

(** Whether a header map carries the span [id], as [GetSpanIDHeader] reads
    it. *)
Definition carriesSpan {SpanID} `{!Externals SpanID} `{!EqDecision SpanID}
    (id : SpanID) (h : Header) : bool :=
  bool_decide (fst (GetSpanIDHeader h) = Some id).

(** A request carrying the span 42, and one whose span header is not a
    number. *)
Definition traced_world : World Wire N :=
  demo_world demo_wire {[ HeaderSpanID := ["42"] ]}.

Definition garbled_world : World Wire N :=
  demo_world demo_wire {[ HeaderSpanID := ["zz"] ]}.

Definition untraced_world : World Wire N :=
  demo_world demo_wire ∅.



(** The messages of the warnings among log entries. *)
Definition warningsOf (ls : list LogEntry) : list error :=
  omap (λ l, match l with LogInvalidSpanID msg => Some msg | _ => None end) ls.

(** The responses logged among log entries. *)
Definition responsesOf (ls : list LogEntry) : list ResponseInfo :=
  omap (λ l, match l with LogResponse p => Some p | _ => None end) ls.


(** A handler that answers 404 with a nine-byte body, then adds a header. *)
Definition notfound_handler : Handler :=
  CallWriteHeader 404
    (CallWrite ["n"%byte; "o"%byte; "t"%byte; " "%byte; "f"%byte;
                "o"%byte; "u"%byte; "n"%byte; "d"%byte]
       (λ _, MutateHeader (λ h, <["X-Late" := ["1"]]> h) Return)).

(** * The recorder *)

Lemma wrap64_id (z : Z) : - 2 ^ 63 ≤ z ≤ maxInt64 → wrap64 z = z.
Proof.
  unfold wrap64, maxInt64. intros Hz.
  rewrite Z.mod_small; lia.
Qed.

Lemma totalBytes_nonneg (bs : list (list byte)) : 0 ≤ totalBytes bs.
Proof. induction bs as [|b bs IH]; simpl; lia. Qed.

Lemma totalBytes_app (bs cs : list (list byte)) :
  totalBytes (bs ++ cs) = totalBytes bs + totalBytes cs.
Proof. induction bs as [|b bs IH]; simpl; lia. Qed.

Section RecorderFacts.
Context {W : Type} `{!ResponseWriter W}.

(** One [Write] on the recorder, spelled out. *)
Lemma Write_unfold (b : list byte) (r : responseInfoRecorder) (u : W) :
  Write b (r, u) =
  (fst (rw_Write b u),
   ({| statusCode := if statusCode r =? 0 then StatusOK else statusCode r;
       ContentLength := wrap64 (ContentLength r + Z.of_nat (length b)) |},
    snd (rw_Write b u))).
Proof. unfold Write. destruct (rw_Write b u); reflexivity. Qed.

(** The recorder hands back what the wrapped writer answered, and leaves the
    wrapped writer as a direct client would have. *)
Lemma writeAll_passthrough (bs : list (list byte)) (r : responseInfoRecorder) (u : W) :
  fst (writeAll bs (r, u)) = fst (writeAll bs u) ∧
  snd (snd (writeAll bs (r, u))) = snd (writeAll bs u).
Proof.
  revert r u. induction bs as [|b bs IH]; intros r u; [done|].
  cbn [writeAll rw_Write recorder_ResponseWriter]. rewrite Write_unfold.
  destruct (rw_Write b u) as [res u1]; cbn [fst snd].
  specialize (IH {| statusCode := if statusCode r =? 0 then StatusOK else statusCode r;
                    ContentLength := wrap64 (ContentLength r + Z.of_nat (length b)) |} u1).
  destruct (writeAll bs (_, u1)) as [rs1 [r2 u2]].
  destruct (writeAll bs u1) as [rs2 u3]. cbn [fst snd] in *.
  destruct IH as [-> ->]. done.
Qed.

(** While the count fits an [int64], it is the plain sum. *)
Lemma writeAll_length (bs : list (list byte)) (r : responseInfoRecorder) (u : W) :
  0 ≤ ContentLength r →
  ContentLength r + totalBytes bs ≤ maxInt64 →
  ContentLength (fst (snd (writeAll bs (r, u)))) = ContentLength r + totalBytes bs.
Proof.
  revert r u. induction bs as [|b bs IH]; intros r u H0 Hmax.
  - simpl. lia.
  - cbn [writeAll rw_Write recorder_ResponseWriter]. rewrite Write_unfold.
    destruct (rw_Write b u) as [res u1]; cbn [fst snd].
    pose proof (totalBytes_nonneg bs) as Hbs.
    cbn [totalBytes foldr] in Hmax. fold (totalBytes bs) in Hmax.
    set (r1 := {| statusCode := _; ContentLength := _ |}).
    assert (Hr1 : ContentLength r1 = ContentLength r + Z.of_nat (length b)).
    { subst r1; cbn [ContentLength]. apply wrap64_id. unfold maxInt64 in *. lia. }
    specialize (IH r1 u1).
    destruct (writeAll bs (r1, u1)) as [rs1 [r2 u2]]. cbn [fst snd] in *.
    rewrite IH; [|lia|lia]. rewrite Hr1. cbn [totalBytes foldr]. fold (totalBytes bs). lia.
Qed.

(** The status reported after a call, from the status reported before. *)
Lemma StatusCode_call (c : Call) (r : responseInfoRecorder) (u : W) :
  StatusCode (fst (call c (r, u))) =
  match c with
  | DoWrite _ => StatusCode r
  | DoWriteHeader code => if code =? 0 then StatusOK else code
  end.
Proof.
  destruct c as [b|code]; cbn [call rw_Write rw_WriteHeader recorder_ResponseWriter].
  - rewrite Write_unfold. cbn [fst snd]. unfold StatusCode; cbn [statusCode].
    destruct (statusCode r =? 0) eqn:E; [reflexivity|]. rewrite E. reflexivity.
  - reflexivity.
Qed.

Lemma StatusCode_calls (cs : list Call) (r : responseInfoRecorder) (u : W) :
  StatusCode (fst (calls cs (r, u))) =
  match lastExplicitStatus cs with
  | Some code => if code =? 0 then StatusOK else code
  | None => StatusCode r
  end.
Proof.
  induction cs as [|c cs IH] using rev_ind; [done|].
  unfold calls, lastExplicitStatus in *. rewrite !foldl_app. cbn [foldl].
  destruct (foldl _ (r, u) cs) as [r1 u1] eqn:E.
  rewrite StatusCode_call. cbn [fst] in IH.
  destruct c as [b|code]; [exact IH|reflexivity].
Qed.

End RecorderFacts.

(** C4.  For every sequence of [Write] calls on a fresh recorder over any
    writer: the results are exactly those of the wrapped writer, which is
    left as if it had been written to directly, whatever it answers; and,
    the byte count being an [int64], as long as the total [N] of the slices'
    lengths fits one, every call adds the length of its slice to the count
    and the final count is [N]. *)
Theorem Write_passes_through_and_counts
    {W : Type} `{!ResponseWriter W} (bs : list (list byte)) (u : W) :
  fst (writeAll bs (newRecorder, u)) = fst (writeAll bs u) ∧
  snd (snd (writeAll bs (newRecorder, u))) = snd (writeAll bs u) ∧
  (totalBytes bs ≤ maxInt64 →
   ContentLength (fst (snd (writeAll bs (newRecorder, u)))) = totalBytes bs ∧
   ∀ pre b post, bs = pre ++ b :: post →
     ContentLength (fst (snd (writeAll (pre ++ [b]) (newRecorder, u)))) =
     ContentLength (fst (snd (writeAll pre (newRecorder, u))))
     + Z.of_nat (length b)).
Proof.
  destruct (writeAll_passthrough bs newRecorder u) as [Hres Hunder].
  do 2 (split; [assumption|]). intros Hfit. split.
  - rewrite writeAll_length; cbn [ContentLength newRecorder]; lia.
  - intros pre b post ->.
    rewrite totalBytes_app in Hfit. cbn [totalBytes foldr] in Hfit.
    fold (totalBytes post) in Hfit.
    pose proof (totalBytes_nonneg pre). pose proof (totalBytes_nonneg post).
    rewrite !writeAll_length; cbn [ContentLength newRecorder];
      rewrite ?totalBytes_app; cbn [totalBytes foldr]; lia.
Qed.

(** Three bytes in two calls on a writer whose connection is gone: the
    recorder answers [(0, broken pipe)] twice, as the writer did, and has
    counted three bytes. *)
Lemma Write_passes_through_and_counts_witness :
  fst (writeAll [["a"%byte; "b"%byte]; ["c"%byte]] (newRecorder, broken_wire))
  = [(0, Some "broken pipe"); (0, Some "broken pipe")] ∧
  ContentLength
    (fst (snd (writeAll [["a"%byte; "b"%byte]; ["c"%byte]]
                 (newRecorder, broken_wire)))) = 3.
Proof.
  split; [reflexivity|].
  apply (Write_passes_through_and_counts
           [["a"%byte; "b"%byte]; ["c"%byte]] broken_wire).
  vm_compute. discriminate.
Defined.

(** C5, as stated, fails: after [WriteHeader(0)] the explicitly set code is
    0, and the status query answers 200. *)
Lemma StatusCode_explicit_zero_counterexample :
  lastExplicitStatus [DoWriteHeader 0] = Some 0 ∧
  StatusCode (fst (calls [DoWriteHeader 0] (newRecorder, demo_wire))) = 200 ∧
  StatusCode (fst (calls [DoWriteHeader 0] (newRecorder, demo_wire)))
  ≠ default StatusOK (lastExplicitStatus [DoWriteHeader 0]).
Proof. repeat split; vm_compute; discriminate. Qed.

(** C5, amended.  After any sequence of [Write] and [WriteHeader] calls on a
    fresh recorder, the status query answers the code of the most recent
    [WriteHeader] when that code is not 0, and 200 when there was no
    [WriteHeader] or its most recent code was 0; in particular, after
    [WriteHeader(404)] and then any number of [Write]s, it answers 404. *)
Theorem StatusCode_explicit_or_200
    {W : Type} `{!ResponseWriter W} (cs : list Call) (u : W) :
  StatusCode (fst (calls cs (newRecorder, u))) =
  match lastExplicitStatus cs with
  | Some code => if code =? 0 then 200 else code
  | None => 200
  end ∧
  ∀ bs : list (list byte),
    StatusCode (fst (calls (DoWriteHeader 404 :: map DoWrite bs) (newRecorder, u)))
    = 404.
Proof.
  split; [apply StatusCode_calls|].
  intros bs. rewrite StatusCode_calls.
  assert (H : ∀ o, foldl (λ o c, match c with
                                 | DoWriteHeader code => Some code
                                 | DoWrite _ => o
                                 end) o (map DoWrite bs) = o).
  { induction bs as [|b bs IH]; intros o; [done|]. simpl. apply IH. }
  unfold lastExplicitStatus. cbn [foldl]. rewrite H. reflexivity.
Qed.

(** C6.  Once the handler has returned, taking the snapshot any number of
    times gives the same [ResponseInfo] every time (the status, the byte
    count and the redacted headers of the recorder as the handler left it),
    and changes nothing. *)
Theorem snapshot_repeatable
    {W SpanID : Type} `{!ResponseWriter W} `{!Externals SpanID}
    (next : Handler) (n : nat) (w : World W SpanID) :
  ∃ rr w1,
    callNext next newRecorder w = (Ok rr, w1) ∧
    snapshots n rr w1 =
    (Ok (replicate n
           {| ri_Headers := redactHeaders (rw_Header (sink w1)) ∅;
              ri_ContentLength := ContentLength rr;
              ri_StatusCode := StatusCode rr |}), w1).
Proof.
  unfold callNext.
  destruct (serve next (newRecorder, sink w) (request w) (tick w))
    as [[[rr u1] r1] t1].
  eexists _, _. split; [reflexivity|]. cbn [fst snd].
  induction n as [|n IH]; [reflexivity|].
  cbn [snapshots]. unfold mbind, M_bind at 1. cbn [snapshot].
  unfold mbind, M_bind at 1. rewrite IH. reflexivity.
Qed.

(** * The middleware *)

Section MiddlewareFacts.
Context {W SpanID : Type} `{!ResponseWriter W} `{!Externals SpanID}.

(** A handler never takes back a clock reading. *)
Lemma serve_tick {R} `{!ResponseWriter R} (h : Handler) (rw : R) (r : Request) (t : nat) :
  (t ≤ snd (serve h rw r t))%nat.
Proof.
  revert rw r t.
  induction h as [|b k IH|code k IH|k IH|f k IH|k IH|f k IH|k IH];
    intros rw r t; cbn [serve]; [simpl; lia| | | | | | |].
  - destruct (rw_Write b rw) as [res rw']. apply IH.
  - apply IH.
  - apply IH.
  - apply IH.
  - apply IH.
  - apply IH.
  - etrans; [|apply IH]. lia.
Qed.

(** With a configuration, the closure runs to its end; this is the state it
    leaves, statement by statement. *)
Lemma Middleware_runs (cfg : MiddlewareConfig SpanID) (next : Handler)
    (w : World W SpanID) :
  let span := resolvedSpan w in
  let r0 := publishedRequest cfg w in
  let rr := fst (fst (fst (downstream cfg next w))) in
  let u1 := snd (fst (fst (downstream cfg next w))) in
  let r1 := snd (fst (downstream cfg next w)) in
  let t1 := snd (downstream cfg next w) in
  let u2 := rw_storeHeader (SetSpanIDHeader (rw_Header u1) span) u1 in
  let p := responseInfo redactHeaders (partialResponse (rr, u2)) in
  let e :=
    {| ev_Request := if inboundSpan w is Some _ then requestInfo r0
                     else requestInfo r1;
       ev_Response := p;
       ev_Route := match RouteName cfg with Some f => f r0 | None => "" end;
       ev_User := match CurrentUser cfg with Some f => f r0 | None => "" end;
       ServerRecv := clock (tick w);
       ServerSend := clock t1 |} in
  Middleware (Some cfg) next w =
  (Ok (),
   {| sink := u2;
      request := r1;
      logs := logs w
              ++ match inboundError w with
                 | Some msg => [LogInvalidSpanID msg]
                 | None => []
                 end
              ++ (if inboundSpan w is Some _ then []
                  else [LogRequest (requestInfo r1); LogResponse p]);
      tick := S t1;
      roots := if inboundSpan w is Some _ then roots w else S (roots w);
      collected := collected w
                   ++ [RecName span (if bool_decide (ev_Route e ≠ "")
                                     then ev_Route e
                                     else qi_URI (ev_Request e));
                       RecEvent span e] |}).
Proof.
  unfold downstream, publishedRequest, resolvedSpan, inboundSpan, inboundError.
  unfold Middleware. destruct w as [u r l t n cs].
  unfold mbind, M_bind, mret, M_ret, getRequest. cbn [request].
  destruct (GetSpanIDHeader (req_Header r)) as [[id|] [msg|]];
    destruct cfg as [[route|] [user|] [set|]];
    cbn -[serve]; unfold callNext; cbn -[serve];
    match goal with
    | |- context [serve next ?a ?b ?c] =>
        destruct (serve next a b c) as [[[rr1 u1] r1] t1]
    end; cbn;
    try match goal with
        | |- context [bool_decide ?P] => destruct (bool_decide P)
        end;
    unfold record; cbn; rewrite <- ?app_assoc; cbn; rewrite ?app_nil_r;
    reflexivity.
Qed.

(** C1.  When the inbound header decodes to the span [S], no root span is
    drawn, the recorder is made for [S], and the header map of the writer
    ends with [S] written to it by [SetSpanIDHeader]; so, for a writer whose
    [Header()] gives back what was stored through it and a codec that
    decodes what it encoded for [S], the outbound header decodes to [S]. *)
Theorem echo_decodes_to_inbound_span (cfg : MiddlewareConfig SpanID)
    (next : Handler) (w : World W SpanID) (S : SpanID) :
  (∀ (h : Header) (u : W), rw_Header (rw_storeHeader h u) = h) →
  (∀ h : Header, fst (GetSpanIDHeader (SetSpanIDHeader h S)) = Some S) →
  inboundSpan w = Some S →
  let w' := snd (Middleware (Some cfg) next w) in
  fst (Middleware (Some cfg) next w) = Ok () ∧
  fst (GetSpanIDHeader (rw_Header (sink w'))) = Some S ∧
  roots w' = roots w ∧
  ∃ name e, collected w' = collected w ++ [RecName S name; RecEvent S e].
Proof.
  intros Hstore Hcodec Hin. rewrite Middleware_runs. cbn [fst snd sink roots collected].
  unfold resolvedSpan. rewrite Hin, Hstore.
  split; [reflexivity|]. split; [apply Hcodec|]. split; [reflexivity|].
  eexists _, _. reflexivity.
Qed.

(** C3.  When decoding the inbound header fails with [msg], the closure still
    runs to its end: it logs the warning, takes the next root span id as the
    span, and runs the handler as for any other request (against a fresh
    recorder over the writer, on the request as published); the writer and
    the request end as the handler left them, up to the echoed header. *)
Theorem malformed_header_falls_back (cfg : MiddlewareConfig SpanID)
    (next : Handler) (w : World W SpanID) (msg : error) :
  GetSpanIDHeader (req_Header (request w)) = (None, Some msg) →
  let span := rootSpanIDs (roots w) in
  let r0 := match SetContextSpan cfg with
            | Some set => set (request w) span
            | None => request w
            end in
  let ran := serve next (newRecorder, sink w) r0 (Datatypes.S (tick w)) in
  let u1 := snd (fst (fst ran)) in
  let w' := snd (Middleware (Some cfg) next w) in
  fst (Middleware (Some cfg) next w) = Ok () ∧
  (∃ q p, logs w' = logs w ++ [LogInvalidSpanID msg; LogRequest q; LogResponse p]) ∧
  roots w' = Datatypes.S (roots w) ∧
  sink w' = rw_storeHeader (SetSpanIDHeader (rw_Header u1) span) u1 ∧
  request w' = snd (fst ran) ∧
  ∃ name e, collected w' = collected w ++ [RecName span name; RecEvent span e].
Proof.
  intros Hbad. rewrite Middleware_runs.
  unfold downstream, publishedRequest, resolvedSpan, inboundSpan, inboundError.
  rewrite Hbad. cbn [fst snd sink roots collected logs request].
  split; [reflexivity|]. split; [eexists _, _; reflexivity|].
  split; [reflexivity|]. split; [reflexivity|]. split; [reflexivity|].
  eexists _, _. reflexivity.
Qed.

(** C7.  The event carries the request info computed after the handler
    returned exactly when the span was not the client's; otherwise it
    carries the one computed before the handler ran.  The recomputation
    leaves its trace in the log: a request line is logged exactly when the
    span was not the client's. *)
Theorem Request_recaptured_iff_new_span (cfg : MiddlewareConfig SpanID)
    (next : Handler) (w : World W SpanID) :
  let w' := snd (Middleware (Some cfg) next w) in
  let before := publishedRequest cfg w in
  let after := snd (fst (downstream cfg next w)) in
  ∃ e new,
    eventsOf (collected w') = eventsOf (collected w) ++ [e] ∧
    ev_Request e = (if inboundSpan w is Some _ then requestInfo before
                    else requestInfo after) ∧
    logs w' = logs w ++ new ∧
    ((∃ q, LogRequest q ∈ new) ↔ inboundSpan w = None) ∧
    (∀ q, LogRequest q ∈ new → q = requestInfo after).
Proof.
  rewrite Middleware_runs. cbn [fst snd collected logs].
  eexists _, _. split.
  { unfold eventsOf. rewrite omap_app. reflexivity. }
  cbn [ev_Request]. split; [reflexivity|]. split; [reflexivity|].
  assert (Hwarn : ∀ (o : option error) (q : RequestInfo) (rest : list LogEntry),
            LogRequest q ∈ match o with
                           | Some msg => [LogInvalidSpanID msg]
                           | None => []
                           end ++ rest ↔ LogRequest q ∈ rest).
  { intros [msg|] q rest; cbn [app]; [|done].
    rewrite elem_of_cons. split; [intros [Hq|Hq]; [discriminate|done]|by right]. }
  setoid_rewrite Hwarn.
  destruct (inboundSpan w) as [id|].
  - setoid_rewrite elem_of_nil. split; [split; [intros [_ []]|discriminate]|intros _ []].
  - setoid_rewrite elem_of_cons. setoid_rewrite elem_of_cons. setoid_rewrite elem_of_nil.
    split; [split; [done|intros _; eexists; left; reflexivity]|].
    intros q [Hq|[Hq|[]]]; [congruence|discriminate].
Qed.

(** C8.  The closure makes two calls on the recorder of the resolved span and
    no other: it names it by the event's route, or by the request's URI when
    the route is empty, and then hands it the event, once. *)
Theorem recorder_named_then_event_once (cfg : MiddlewareConfig SpanID)
    (next : Handler) (w : World W SpanID) :
  let w' := snd (Middleware (Some cfg) next w) in
  ∃ e,
    collected w' =
    collected w
    ++ [RecName (resolvedSpan w)
          (if bool_decide (ev_Route e ≠ "") then ev_Route e
           else qi_URI (ev_Request e));
        RecEvent (resolvedSpan w) e] ∧
    eventsOf (collected w') = eventsOf (collected w) ++ [e] ∧
    ev_Route e = match RouteName cfg with
                 | Some f => f (publishedRequest cfg w)
                 | None => ""
                 end.
Proof.
  rewrite Middleware_runs. cbn [fst snd collected].
  eexists. split; [reflexivity|]. split; [|reflexivity].
  unfold eventsOf. rewrite omap_app. reflexivity.
Qed.

(** C9.  [ServerRecv] is the clock reading taken just before the handler is
    called and [ServerSend] the one taken after it has returned, a later
    reading; on a clock that never goes back, [ServerRecv ≤ ServerSend]. *)
Theorem ServerSend_not_before_ServerRecv (cfg : MiddlewareConfig SpanID)
    (next : Handler) (w : World W SpanID) :
  (∀ i j : nat, (i ≤ j)%nat → clock i ≤ clock j) →
  let w' := snd (Middleware (Some cfg) next w) in
  let returned := snd (downstream cfg next w) in
  ∃ e,
    eventsOf (collected w') = eventsOf (collected w) ++ [e] ∧
    ServerRecv e = clock (tick w) ∧
    ServerSend e = clock returned ∧
    (tick w < returned)%nat ∧
    ServerRecv e ≤ ServerSend e.
Proof.
  intros Hmono. rewrite Middleware_runs. cbn [fst snd collected].
  eexists. split; [unfold eventsOf; rewrite omap_app; reflexivity|].
  cbn [ServerRecv ServerSend].
  assert (Hlater : (tick w < snd (downstream cfg next w))%nat).
  { unfold downstream. apply (serve_tick next). }
  repeat split; [exact Hlater|]. apply Hmono. lia.
Qed.

(** C10.  With a nil configuration the closure panics on a nil pointer
    dereference, whatever the request and the handler: the writer, the
    request, the clock and the collector are as they were, and the handler
    has no part in the outcome. *)
Theorem nil_conf_panics (next : Handler) (w : World W SpanID) :
  let w' := snd (Middleware None next w) in
  fst (Middleware None next w) = Panicked nilDereference ∧
  sink w' = sink w ∧ request w' = request w ∧ tick w' = tick w ∧
  collected w' = collected w ∧
  Middleware None next w = Middleware None Return w.
Proof.
  unfold Middleware. destruct w as [u r l t n cs].
  unfold mbind, M_bind, mret, M_ret, getRequest. cbn [request].
  destruct (GetSpanIDHeader (req_Header r)) as [[id|] [msg|]]; cbn;
    repeat split; reflexivity.
Qed.

End MiddlewareFacts.

(** * The order of operations on the writer *)

(** Through the recorder, a handler only ever adds to the journal of the
    writer underneath. *)
Lemma serve_journal {SpanID} `{!Externals SpanID} (h : Handler)
    (rr : responseInfoRecorder) (u : Wire) (r : Request) (t : nat) :
  ∃ during,
    wire_journal (snd (fst (fst (serve h (rr, u) r t)))) = wire_journal u ++ during.
Proof.
  revert rr u r t.
  induction h as [|b k IH|code k IH|k IH|f k IH|k IH|f k IH|k IH];
    intros rr u r t; cbn [serve].
  - exists []. cbn. by rewrite app_nil_r.
  - cbn [rw_Write recorder_ResponseWriter]. rewrite Write_unfold.
    cbn [rw_Write Wire_ResponseWriter fst snd].
    edestruct IH as [during Hd]. rewrite Hd. cbn [wire_journal].
    rewrite <- app_assoc. eexists. reflexivity.
  - cbn [rw_WriteHeader recorder_ResponseWriter WriteHeader Wire_ResponseWriter].
    edestruct IH as [during Hd]. rewrite Hd. cbn [wire_journal].
    rewrite <- app_assoc. eexists. reflexivity.
  - apply IH.
  - cbn [rw_storeHeader rw_Header recorder_ResponseWriter Wire_ResponseWriter fst snd].
    edestruct IH as [during Hd]. rewrite Hd. cbn [wire_journal].
    rewrite <- app_assoc. eexists. reflexivity.
  - apply IH.
  - apply IH.
  - apply IH.
Qed.

(** C2, as stated, fails: the handler writes two bytes, and in the journal
    of the writer that write comes first and the header write carrying the
    span comes second. *)
Lemma echo_before_body_counterexample :
  let w' := snd (Middleware (Some demo_conf) demo_handler untraced_world) in
  wire_journal (sink w') =
  [WireWrite ["{"%byte; "}"%byte];
   WireHeaderStore {[ HeaderSpanID := ["1000"] ]}] ∧
  carriesSpan (resolvedSpan untraced_world) {[ HeaderSpanID := ["1000"] ]} = true ∧
  echoBeforeBody (carriesSpan (resolvedSpan untraced_world))
    (wire_journal (sink w')) = false.
Proof. vm_compute. repeat split; reflexivity. Qed.

(** C2, amended.  The span is written to the response header after the
    handler has returned: on the writer, the header write is the last
    operation of the call, after everything the handler did, body writes
    included; and the header map then holds what [SetSpanIDHeader] made of
    the map the handler left. *)
Theorem span_echo_follows_downstream {SpanID} `{!Externals SpanID}
    (cfg : MiddlewareConfig SpanID) (next : Handler) (w : World Wire SpanID) :
  let w' := snd (Middleware (Some cfg) next w) in
  let u1 := snd (fst (fst (downstream cfg next w))) in
  let echoed := SetSpanIDHeader (wire_header u1) (resolvedSpan w) in
  ∃ during,
    wire_journal u1 = wire_journal (sink w) ++ during ∧
    wire_journal (sink w') =
    wire_journal (sink w) ++ during ++ [WireHeaderStore echoed] ∧
    wire_header (sink w') = echoed.
Proof.
  rewrite Middleware_runs. cbn [fst snd sink].
  unfold downstream.
  destruct (serve_journal next newRecorder (sink w) (publishedRequest cfg w)
              (S (tick w))) as [during Hd].
  exists during. split; [exact Hd|].
  cbn [rw_storeHeader rw_Header Wire_ResponseWriter wire_journal wire_header].
  rewrite Hd, <- app_assoc. split; reflexivity.
Qed.

(** * The theorems at work *)

(** A request carrying span 42: the header of the response decodes to 42. *)
Lemma echo_decodes_to_inbound_span_witness :
  fst (GetSpanIDHeader
         (rw_Header
            (sink (snd (Middleware (Some demo_conf) demo_handler traced_world)))))
  = Some 42%N.
Proof.
  refine (proj1 (proj2 (echo_decodes_to_inbound_span
                          demo_conf demo_handler traced_world 42%N _ _ _))).
  - intros h u. reflexivity.
  - intros h. cbn [GetSpanIDHeader SetSpanIDHeader demo_Externals].
    unfold demo_GetSpanIDHeader, demo_SetSpanIDHeader.
    rewrite lookup_insert_eq. reflexivity.
  - reflexivity.
Defined.

(** A request whose span header is not a number: the closure returns, one
    root span id has been drawn, and the log starts with the warning. *)
Lemma malformed_header_falls_back_witness :
  fst (Middleware (Some demo_conf) demo_handler garbled_world) = Ok () ∧
  roots (snd (Middleware (Some demo_conf) demo_handler garbled_world)) = 1%nat.
Proof.
  pose proof (malformed_header_falls_back
                demo_conf demo_handler garbled_world "invalid Span-ID header"
                eq_refl) as H.
  cbv zeta in H. destruct H as (Hok & _ & Hroots & _).
  split; [exact Hok|exact Hroots].
Defined.

(** On a clock that gains ten units a reading, the event of the request
    above is received at 500 and sent at 510. *)
Lemma ServerSend_not_before_ServerRecv_witness :
  ∃ e,
    eventsOf (collected (snd (Middleware (Some demo_conf) demo_handler traced_world)))
    = [e] ∧
    ServerRecv e = 500 ∧ ServerSend e = 510 ∧ ServerRecv e ≤ ServerSend e.
Proof.
  destruct (ServerSend_not_before_ServerRecv demo_conf demo_handler traced_world)
    as (e & Hev & Hrecv & Hsend & _ & Hle).
  - intros i j Hij. cbn [clock demo_Externals]. lia.
  - exists e. repeat split; [exact Hev|exact Hrecv|exact Hsend|exact Hle].
Defined.

(** * Further properties of the recorder *)

Lemma wrap64_range (z : Z) : - 2 ^ 63 ≤ wrap64 z ≤ maxInt64.
Proof.
  unfold wrap64, maxInt64.
  pose proof (Z.mod_pos_bound (z + 2 ^ 63) (2 ^ 64) ltac:(lia)). lia.
Qed.

Lemma wrap64_add_l (a b : Z) : wrap64 (wrap64 a + b) = wrap64 (a + b).
Proof.
  unfold wrap64.
  replace ((a + 2 ^ 63) mod 2 ^ 64 - 2 ^ 63 + b + 2 ^ 63)
    with ((a + 2 ^ 63) mod 2 ^ 64 + b) by lia.
  rewrite Zplus_mod_idemp_l. f_equal. f_equal. lia.
Qed.

Lemma writeAll_wraps_from {W : Type} `{!ResponseWriter W}
    (bs : list (list byte)) (r : responseInfoRecorder) (u : W) :
  wrap64 (ContentLength r) = ContentLength r →
  ContentLength (fst (snd (writeAll bs (r, u)))) =
  wrap64 (ContentLength r + totalBytes bs).
Proof.
  revert r u. induction bs as [|b bs IH]; intros r u Hr.
  - cbn. rewrite Z.add_0_r. by rewrite Hr.
  - cbn [writeAll rw_Write recorder_ResponseWriter]. rewrite Write_unfold.
    destruct (rw_Write b u) as [res u1]; cbn [fst snd].
    set (r1 := {| statusCode := _; ContentLength := _ |}).
    specialize (IH r1 u1).
    destruct (writeAll bs (r1, u1)) as [rs1 [r2 u2]]. cbn [fst snd] in *.
    rewrite IH.
    + subst r1; cbn [ContentLength]. rewrite wrap64_add_l.
      cbn [totalBytes foldr]. f_equal. fold (totalBytes bs). lia.
    + subst r1; cbn [ContentLength]. apply wrap64_id, wrap64_range.
Qed.


(** X2.  The byte count is an [int64] that wraps: after any sequence of
    [Write] calls on a fresh recorder it is the total number of bytes
    reduced to the [int64] range, whatever the total. *)
Theorem ContentLength_wraps {W : Type} `{!ResponseWriter W}
    (bs : list (list byte)) (u : W) :
  ContentLength (fst (snd (writeAll bs (newRecorder, u)))) =
  wrap64 (totalBytes bs) ∧
  - 2 ^ 63 ≤ ContentLength (fst (snd (writeAll bs (newRecorder, u)))) ≤ maxInt64.
Proof.
  assert (H : ContentLength (fst (snd (writeAll bs (newRecorder, u)))) =
              wrap64 (totalBytes bs)).
  { rewrite writeAll_wraps_from; [reflexivity|]. reflexivity. }
  split; [exact H|]. rewrite H. apply wrap64_range.
Qed.



(** * Further properties of the middleware *)


Section MoreMiddlewareFacts.
Context {W SpanID : Type} `{!ResponseWriter W} `{!Externals SpanID}.


(** X5.  The response part of the event is read after the span has been
    written to the header map: its headers are the redaction of the final
    header map of the writer, with no trailers at all; its length and status
    are the recorder's, and the status is never 0. *)
Theorem event_Response_is_final_snapshot (cfg : MiddlewareConfig SpanID)
    (next : Handler) (w : World W SpanID) :
  let w' := snd (Middleware (Some cfg) next w) in
  let rr := fst (fst (fst (downstream cfg next w))) in
  ∃ e,
    eventsOf (collected w') = eventsOf (collected w) ++ [e] ∧
    ev_Response e =
    {| ri_Headers := redactHeaders (rw_Header (sink w')) ∅;
       ri_ContentLength := ContentLength rr;
       ri_StatusCode := StatusCode rr |} ∧
    ri_StatusCode (ev_Response e) ≠ 0.
Proof.
  rewrite Middleware_runs. cbn [fst snd sink collected].
  eexists. split; [unfold eventsOf; rewrite omap_app; reflexivity|].
  split; [reflexivity|].
  cbn [ev_Response responseInfo partialResponse ri_StatusCode resp_StatusCode fst].
  unfold StatusCode, StatusOK.
  destruct (statusCode _ =? 0) eqn:E; [discriminate|]. by apply Z.eqb_neq.
Qed.


(** X7.  The warning is logged exactly when [GetSpanIDHeader] returns an
    error, once, with that error; whether it also returned a span plays no
    part, and a span returned along with an error is used all the same. *)
Theorem warning_iff_decode_error (cfg : MiddlewareConfig SpanID)
    (next : Handler) (w : World W SpanID) :
  let w' := snd (Middleware (Some cfg) next w) in
  ∃ new name e,
    logs w' = logs w ++ new ∧
    warningsOf new = match inboundError w with
                     | Some msg => [msg]
                     | None => []
                     end ∧
    collected w' = collected w ++ [RecName (resolvedSpan w) name;
                                   RecEvent (resolvedSpan w) e] ∧
    resolvedSpan w = default (rootSpanIDs (roots w)) (inboundSpan w).
Proof.
  rewrite Middleware_runs. cbn [fst snd logs collected].
  eexists _, _, _. split; [reflexivity|]. split; [|split; [reflexivity|]].
  - unfold warningsOf. rewrite omap_app.
    destruct (inboundError w), (inboundSpan w); reflexivity.
  - unfold resolvedSpan. destruct (inboundSpan w); reflexivity.
Qed.

(** X8.  When the span is new, the response that is logged is the response
    that is emitted; when the span is the client's, no response is logged. *)
Theorem logged_Response_is_emitted (cfg : MiddlewareConfig SpanID)
    (next : Handler) (w : World W SpanID) :
  let w' := snd (Middleware (Some cfg) next w) in
  ∃ new e,
    logs w' = logs w ++ new ∧
    eventsOf (collected w') = eventsOf (collected w) ++ [e] ∧
    responsesOf new = if inboundSpan w is Some _ then [] else [ev_Response e].
Proof.
  rewrite Middleware_runs. cbn [fst snd logs collected].
  eexists _, _. split; [reflexivity|].
  split; [unfold eventsOf; rewrite omap_app; reflexivity|].
  unfold responsesOf. rewrite omap_app.
  destruct (inboundError w), (inboundSpan w); reflexivity.
Qed.

(** X9.  With a nil configuration the span is resolved before the panic: a
    decoding error is still logged, a root span id is still drawn when the
    request brought no span, and no event reaches the collector. *)
Theorem nil_conf_panics_after_span_resolution (next : Handler)
    (w : World W SpanID) :
  let w' := snd (Middleware None next w) in
  logs w' = logs w ++ match inboundError w with
                      | Some msg => [LogInvalidSpanID msg]
                      | None => []
                      end ∧
  roots w' = (if inboundSpan w is Some _ then roots w else S (roots w)) ∧
  eventsOf (collected w') = eventsOf (collected w).
Proof.
  unfold Middleware, inboundError, inboundSpan. destruct w as [u r l t n cs].
  unfold mbind, M_bind, mret, M_ret, getRequest. cbn [request].
  destruct (GetSpanIDHeader (req_Header r)) as [[id|] [msg|]]; cbn;
    rewrite ?app_nil_r; repeat split; reflexivity.
Qed.

(** X10.  Whatever the request and whatever the handler did to the header
    map, the response header ends carrying the span the event is recorded
    under (the client's, or else the new root span), for a writer whose
    [Header()] gives back what was stored through it and a codec that
    decodes what it encoded for that span. *)
Theorem echo_decodes_to_resolved_span (cfg : MiddlewareConfig SpanID)
    (next : Handler) (w : World W SpanID) :
  (∀ (h : Header) (u : W), rw_Header (rw_storeHeader h u) = h) →
  (∀ h : Header,
     fst (GetSpanIDHeader (SetSpanIDHeader h (resolvedSpan w)))
     = Some (resolvedSpan w)) →
  let w' := snd (Middleware (Some cfg) next w) in
  fst (GetSpanIDHeader (rw_Header (sink w'))) = Some (resolvedSpan w) ∧
  ∃ name e, collected w' = collected w ++ [RecName (resolvedSpan w) name;
                                           RecEvent (resolvedSpan w) e].
Proof.
  intros Hstore Hcodec. rewrite Middleware_runs. cbn [fst snd sink collected].
  rewrite Hstore. split; [apply Hcodec|]. eexists _, _. reflexivity.
Qed.

End MoreMiddlewareFacts.

(** A request without span header, answered 404 by a handler that also sets
    a header of its own: the response header decodes to the root span 1000. *)
Lemma echo_decodes_to_resolved_span_witness :
  fst (GetSpanIDHeader
         (rw_Header
            (sink (snd (Middleware (Some demo_conf) notfound_handler
                          untraced_world)))))
  = Some 1000%N.
Proof.
  refine (proj1 (echo_decodes_to_resolved_span
                   demo_conf notfound_handler untraced_world _ _)).
  - intros h u. reflexivity.
  - intros h. cbn [GetSpanIDHeader SetSpanIDHeader demo_Externals].
    unfold demo_GetSpanIDHeader, demo_SetSpanIDHeader.
    rewrite lookup_insert_eq. reflexivity.
Defined.
